(** * fantasy-genius: squad selection and starting eleven (main.py)

    A shallow embedding of the optimisation core of [main.py]:
    fixture weighting, the expected-points builder, input validation,
    the two squad solvers and the starting-eleven search.

    Conventions of the embedding.
    - A pandas DataFrame is a [Frame]: the list of its column names and
      the list of its rows.  A player row is a record with the integer
      columns the code reads ([id], [element_type], [team], [now_cost]),
      the nullable [total_points], the [position] label, and [num], the
      store of every other numeric column ([ep_gw1], [exp_pts_window],
      ...).  A field whose column is not listed in [columns] is never
      read: the code that would read it raises [KeyError] first.
    - Python floats are exact rationals ([Q]); the only missing value
      (NaN) the model keeps is the one the code handles itself, in
      [total_points].  Where a division by zero would produce inf or
      nan the model says so explicitly ([ratio], [NonFinite]).
    - Exceptions are values of [exn], returned through [result];
      [warnings.warn] appends to a log returned next to the result.
    - Console output and the fixture summary attached to a result
      ([_get_fixtures_info], reporting only) are left out. *)

From Stdlib Require Import ZArith QArith Qabs Qminmax Qround Lqa String List Bool Lia Permutation Sorted Finite DecimalString DecimalZ DecimalPos.
From stdpp Require Import gmap.
Import ListNotations.

Local Open Scope string_scope.
Local Open Scope list_scope.

(** ** Exceptions *)

Inductive Position : Type := GK | DEF | MID | FWD.

Inductive value_error : Type :=
| DuplicatePlayerIds            (* "Duplicate player IDs found" *)
| InvalidGameweekRange          (* "Invalid gameweek range" *)
| BudgetMustBePositive          (* "Budget must be positive" *)
| UnknownSolver (s : string)    (* "Unknown solver: {solver}" *)
| NotEnoughPlayers (d m f : nat) (* "Not enough players for formation d-m-f" *)
| NoValidFormation.             (* "No valid formation possible with current squad" *)

Inductive infeasible : Type :=
| NoFeasibleSolution            (* "No feasible solution found - ..." *)
| CannotFill (pos : Position) (limit got : nat) (remaining_budget : Z)
| NotFifteen (selected : nat).  (* "Could not select exactly 15 players..." *)

Inductive LpStatus : Type :=
| LpStatusNotSolved | LpStatusOptimal | LpStatusInfeasible
| LpStatusUnbounded | LpStatusUndefined.

Inductive runtime_error : Type :=
| SolverFailed (st : LpStatus)  (* "Solver failed with status: ..." *)
| InvalidSolution (selected : nat). (* "Invalid solution: selected n players instead of 15" *)

Inductive exn : Type :=
| KeyError (cols : list string)
| ValueError (msg : value_error)
| InfeasibleError (msg : infeasible)
| RuntimeError (msg : runtime_error)
| IndexError
| NonFinite. (* not a Python exception: a division by zero produced inf/nan,
                the run leaves the rational model *)

Inductive result (A : Type) : Type :=
| Ok (a : A)
| Raise (e : exn).
Arguments Ok {A} a.
Arguments Raise {A} e.

#[global] Instance result_ret : MRet result := fun A a => Ok a.
#[global] Instance result_bind : MBind result := fun A B k c =>
  match c with
  | Ok a => k a
  | Raise e => Raise e
  end.

(** the call returned *)
Definition is_ok {A : Type} (c : result A) : bool :=
  match c with
  | Ok _ => true
  | Raise _ => false
  end.

(** ** Tables *)

Record Frame (R : Type) : Type := mkFrame {
  columns : list string;
  rows : list R
}.
Arguments mkFrame {R} columns rows.
Arguments columns {R} f.
Arguments rows {R} f.

(** [col in df.columns] *)
Definition has_col {R : Type} (c : string) (df : Frame R) : bool :=
  existsb (String.eqb c) (columns df).

(** [df.empty]: some axis has length 0 *)
Definition empty {R : Type} (df : Frame R) : bool :=
  match rows df, columns df with
  | [], _ => true
  | _, [] => true
  | _, _ => false
  end.

Record Player : Type := mkPlayer {
  id : Z;
  element_type : Z;
  team : Z;
  now_cost : Z;
  total_points : option Q;       (* None: NaN *)
  position : option Position;    (* None: any label other than GK/DEF/MID/FWD *)
  num : string -> Q
}.

Record Fixture : Type := mkFixture {
  event : Z;
  team_h : Z;
  team_a : Z;
  team_h_difficulty : Z;
  team_a_difficulty : Z
}.

(** [df[c] = vals] for a numeric column outside the typed ones *)
Definition set_num (p : Player) (c : string) (v : Q) : Player :=
  {| id := id p; element_type := element_type p; team := team p;
     now_cost := now_cost p; total_points := total_points p;
     position := position p;
     num := fun c' => if String.eqb c' c then v else num p c' |}.

Definition set_column (df : Frame Player) (c : string) (vals : list Q) : Frame Player :=
  {| columns := if has_col c df then columns df else columns df ++ [c];
     rows := map (fun pv => set_num (fst pv) c (snd pv)) (combine (rows df) vals) |}.

Definition set_position (p : Player) (pos : option Position) : Player :=
  {| id := id p; element_type := element_type p; team := team p;
     now_cost := now_cost p; total_points := total_points p;
     position := pos; num := num p |}.

(** ** Fixture weighting: [_calculate_fixture_multiplier] *)

(** Python's [max(a, b)]: [b] only when it is strictly greater *)
Definition py_max (a b : Q) : Q := if Qlt_le_dec a b then b else a.

(** [max(0.6, 1.6 - (difficulty * 0.2))] *)
Definition difficulty_multiplier (d : Z) : Q :=
  py_max (6 # 10) ((16 # 10) - inject_Z d * (2 # 10))%Q.

(** [fixture.get('team_h')] and [fixture.get('team_a')] *)
Definition get_team_h (fx : Frame Fixture) (f : Fixture) : option Z :=
  if has_col "team_h" fx then Some (team_h f) else None.
Definition get_team_a (fx : Frame Fixture) (f : Fixture) : option Z :=
  if has_col "team_a" fx then Some (team_a f) else None.

(** [fixture.get('team_h_difficulty', 3)] and the away counterpart *)
Definition get_home_difficulty (fx : Frame Fixture) (f : Fixture) : Z :=
  if has_col "team_h_difficulty" fx then team_h_difficulty f else 3%Z.
Definition get_away_difficulty (fx : Frame Fixture) (f : Fixture) : Z :=
  if has_col "team_a_difficulty" fx then team_a_difficulty f else 3%Z.

(** one iteration of the loop filling the [team_multipliers] dict *)
Definition record_fixture (fx : Frame Fixture)
    (team_multipliers : gmap Z Q) (f : Fixture) : gmap Z Q :=
  let home_multiplier := difficulty_multiplier (get_home_difficulty fx f) in
  let away_multiplier := difficulty_multiplier (get_away_difficulty fx f) in
  let tm1 := match get_team_h fx f with
             | Some home_team => <[home_team := home_multiplier]> team_multipliers
             | None => team_multipliers
             end in
  match get_team_a fx f with
  | Some away_team => <[away_team := away_multiplier]> tm1
  | None => tm1
  end.

Definition team_multipliers_of (fx : Frame Fixture) (gw_fixtures : list Fixture) : gmap Z Q :=
  fold_left (record_fixture fx) gw_fixtures ∅.

(** [fixtures[fixtures['event'] == gameweek]] *)
Definition gw_fixtures_of (fx : Frame Fixture) (gameweek : Z) : list Fixture :=
  List.filter (fun f => Z.eqb (event f) gameweek) (rows fx).

(** [player.get('team')] *)
Definition get_team (players : Frame Player) (p : Player) : option Z :=
  if has_col "team" players then Some (team p) else None.

(** [team_multipliers.get(team_id, 1.0)] *)
Definition multiplier_for (tm : gmap Z Q) (team_id : option Z) : Q :=
  match team_id with
  | Some t => match tm !! t with Some m => m | None => 1%Q end
  | None => 1%Q
  end.

Definition _calculate_fixture_multiplier
    (players : Frame Player) (fixtures : Frame Fixture) (gameweek : Z) : list Q :=
  if empty fixtures || negb (has_col "event" fixtures) then
    map (fun _ => 1%Q) (rows players)
  else
    let gw_fixtures := gw_fixtures_of fixtures gameweek in
    match gw_fixtures with
    | [] => map (fun _ => 1%Q) (rows players)
    | _ =>
      let tm := team_multipliers_of fixtures gw_fixtures in
      map (fun p => multiplier_for tm (get_team players p)) (rows players)
    end.

(** ** Expected-points builder: [_incorporate_fixture_difficulty] *)

(** [Series.fillna(v)] on one cell *)
Definition fillna (v : Q) (cell : option Q) : Q :=
  match cell with
  | Some x => x
  | None => v
  end.

(** [Series.clip(lower=lo)] on one cell *)
Definition clip_lower (lo x : Q) : Q := if Qlt_le_dec x lo then lo else x.

(** [players_work['total_points'].fillna(50) / 38], then [.clip(lower=0.5)] *)
Definition base_points_per_gw (p : Player) : Q :=
  clip_lower (1 # 2) (fillna 50 (total_points p) / 38)%Q.

(** [all(col in players_work.columns for col in expected_points_cols)] *)
Definition all_cols_exist (df : Frame Player) (cols : list string) : bool :=
  forallb (fun col => has_col col df) cols.

(** the loop of the first branch, from index [i] on: the columns are
    written from the base series computed before the loop *)
Fixpoint synthesize_columns (fixtures : Frame Fixture) (gw_start : Z)
    (base : list Q) (i : nat) (cols : list string)
    (players_work : Frame Player) : Frame Player :=
  match cols with
  | [] => players_work
  | col :: cols' =>
    let gw := (gw_start + Z.of_nat i)%Z in
    let fixture_multipliers := _calculate_fixture_multiplier players_work fixtures gw in
    synthesize_columns fixtures gw_start base (S i) cols'
      (set_column players_work col (zip_with Qmult base fixture_multipliers))
  end.

(** the loop of the second branch: each column is scaled in place *)
Fixpoint scale_columns (fixtures : Frame Fixture) (gw_start : Z)
    (i : nat) (cols : list string) (players_work : Frame Player) : Frame Player :=
  match cols with
  | [] => players_work
  | col :: cols' =>
    let gw := (gw_start + Z.of_nat i)%Z in
    let fixture_multipliers := _calculate_fixture_multiplier players_work fixtures gw in
    scale_columns fixtures gw_start (S i) cols'
      (set_column players_work col
         (zip_with Qmult (map (fun p => num p col) (rows players_work)) fixture_multipliers))
  end.

(** The column names in [expected_points_cols] are taken outside the
    typed columns of [Player]; [players_work['total_points']] raises
    [KeyError] when the table has no such column. *)
Definition _incorporate_fixture_difficulty (players : Frame Player)
    (fixtures : Frame Fixture) (gw_start gw_end : Z)
    (expected_points_cols : list string) : result (Frame Player) :=
  if negb (all_cols_exist players expected_points_cols) then
    if has_col "total_points" players then
      let base := map base_points_per_gw (rows players) in
      Ok (synthesize_columns fixtures gw_start base 0 expected_points_cols players)
    else Raise (KeyError ["total_points"])
  else
    Ok (scale_columns fixtures gw_start 0 expected_points_cols players).

(** [f"ep_gw{gw}"] *)
Definition ep_gw (gw : Z) : string :=
  "ep_gw" ++ NilZero.string_of_int (Z.to_int gw).

(** [range(start, stop)] *)
Definition py_range (start stop : Z) : list Z :=
  map (fun k => (start + Z.of_nat k)%Z) (seq 0 (Z.to_nat (stop - start))).

Definition default_expected_points_cols (gw_start gw_end : Z) : list string :=
  map ep_gw (py_range gw_start (gw_end + 1)).

(** [players_work[expected_points_cols].sum(axis=1)] *)
Definition sum_columns (p : Player) (cols : list string) : Q :=
  fold_left Qplus (map (num p) cols) 0%Q.

(** Step 2 of [select_initial_squad]: the table handed to the solver *)
Definition prepare_expected_points (players : Frame Player)
    (fixtures : Frame Fixture) (gw_start gw_end : Z)
    (expected_points_cols : option (list string)) : result (Frame Player) :=
  let cols := match expected_points_cols with
              | Some cols => cols
              | None => default_expected_points_cols gw_start gw_end
              end in
  players_work ← _incorporate_fixture_difficulty players fixtures gw_start gw_end cols;
  Ok (set_column players_work "exp_pts_window"
        (map (fun p => sum_columns p cols) (rows players_work))).

(** ** Input validation: [_validate_inputs] *)

Inductive warning : Type :=
| PoolExceeds1000. (* "Player pool exceeds 1000 rows, performance may be impacted" *)

Definition required_cols : list string := ["id"; "element_type"; "team"; "now_cost"].

(** [players['id'].duplicated().any()] *)
Fixpoint duplicated_any (l : list Z) : bool :=
  match l with
  | [] => false
  | x :: l' => existsb (Z.eqb x) l' || duplicated_any l'
  end.

Definition _validate_inputs (players : Frame Player) (fixtures : Frame Fixture)
    (gw_start gw_end : Z) (budget_million : Q) : list warning * result unit :=
  let missing_cols := List.filter (fun col => negb (has_col col players)) required_cols in
  match missing_cols with
  | _ :: _ => ([], Raise (KeyError missing_cols))
  | [] =>
    if duplicated_any (map id (rows players)) then
      ([], Raise (ValueError DuplicatePlayerIds))
    else
      let log := if (1000 <? length (rows players))%nat then [PoolExceeds1000] else [] in
      if (gw_start <? 1)%Z || (gw_end <? gw_start)%Z || (38 <? gw_end)%Z then
        (log, Raise (ValueError InvalidGameweekRange))
      else if Qle_bool budget_million 0 then
        (log, Raise (ValueError BudgetMustBePositive))
      else (log, Ok tt)
  end.

(** ** Results *)

Record ObjectiveDetails : Type := mkDetails {
  od_solver : string;
  od_status : string;
  od_objective_value : Q
}.

Record SquadResult : Type := mkSquadResult {
  squad_df : Frame Player;
  total_cost : Q;
  expected_points : Q;
  per_position : Position -> list Z;
  club_counts : gmap Z nat;
  objective_details : ObjectiveDetails
}.

Definition position_mapping (et : Z) : option Position :=
  if (et =? 1)%Z then Some GK
  else if (et =? 2)%Z then Some DEF
  else if (et =? 3)%Z then Some MID
  else if (et =? 4)%Z then Some FWD
  else None.

Definition position_limits (pos : Position) : nat :=
  match pos with
  | GK => 2 | DEF => 5 | MID => 5 | FWD => 3
  end.

(** the items of [position_mapping], in dict order *)
Definition position_items : list (Z * Position) :=
  [(1%Z, GK); (2%Z, DEF); (3%Z, MID); (4%Z, FWD)].

Definition Position_eqb (a b : Position) : bool :=
  match a, b with
  | GK, GK | DEF, DEF | MID, MID | FWD, FWD => true
  | _, _ => false
  end.

(** [squad_df['position'] == pos] *)
Definition has_position (pos : Position) (p : Player) : bool :=
  match position p with
  | Some q => Position_eqb q pos
  | None => false
  end.

(** Python's [int(x)]: truncation toward zero *)
Definition py_int (x : Q) : Z := Z.quot (Qnum x) (Zpos (Qden x)).

(** [int(budget_million * 10)] *)
Definition budget_units_of (budget_million : Q) : Z := py_int (budget_million * 10)%Q.

Definition exp_pts_window (p : Player) : Q := num p "exp_pts_window".

(** [Series.sum()] over the rows *)
Definition sum_Z (l : list Z) : Z := fold_left Z.add l 0%Z.
Definition sum_Q (l : list Q) : Q := fold_left Qplus l 0%Q.

(** [Series.value_counts().to_dict()] *)
Definition value_counts (l : list Z) : gmap Z nat :=
  fold_left (fun m t => <[t := S (default 0%nat (m !! t))]> m) l ∅.

(** the tail common to both solvers, from [squad_df] with its position
    column to the result object *)
Definition build_result (squad : Frame Player) (details : Q -> ObjectiveDetails) : SquadResult :=
  let expected := sum_Q (map exp_pts_window (rows squad)) in
  {| squad_df := squad;
     total_cost := (inject_Z (sum_Z (map now_cost (rows squad))) / 10)%Q;
     expected_points := expected;
     per_position := fun pos => map id (List.filter (has_position pos) (rows squad));
     club_counts := value_counts (map team (rows squad));
     objective_details := details expected |}.

(** [squad_df['position'] = squad_df['element_type'].map(position_mapping)] *)
Definition with_position_column (cols : list string) (rs : list Player) : Frame Player :=
  {| columns := if existsb (String.eqb "position") cols then cols else cols ++ ["position"];
     rows := map (fun p => set_position p (position_mapping (element_type p))) rs |}.

(** ** Exact solver: [_solve_with_mip]

    Both solvers are called by [select_initial_squad] only, on the
    validated table carrying [exp_pts_window]: the columns they read
    are present. *)

Inductive LpSense : Type := LpConstraintEQ | LpConstraintLE.

(** a linear constraint over the binary player variables, each named
    by the player id it was created for *)
Record LpConstraint : Type := mkConstraint {
  terms : list (Z * Z);
  sense : LpSense;
  rhs : Z
}.

Record LpProblem : Type := mkProblem {
  variables : list Z;              (* all of category Binary *)
  objective : list (Z * Q);        (* maximised *)
  constraints : list LpConstraint
}.

(** the keys of a dict filled in this order: a repeated key keeps its
    first place *)
Fixpoint dict_keys (seen : list Z) (l : list Z) : list Z :=
  match l with
  | [] => []
  | k :: l' =>
    if existsb (Z.eqb k) seen then dict_keys seen l'
    else k :: dict_keys (k :: seen) l'
  end.

(** [Series.unique()]: first occurrences, in order *)
Definition unique (l : list Z) : list Z := dict_keys [] l.

(** [pulp.lpSum([player_vars[player['id']] for ... in df.iterrows()])] *)
Definition count_terms (rs : list Player) : list (Z * Z) :=
  map (fun p => (id p, 1%Z)) rs.

Definition position_constraint (players : Frame Player) (item : Z * Position) : LpConstraint :=
  let players_in_position :=
    List.filter (fun p => (element_type p =? fst item)%Z) (rows players) in
  mkConstraint (count_terms players_in_position) LpConstraintEQ
    (Z.of_nat (position_limits (snd item))).

Definition club_constraint (players : Frame Player) (club : Z) : LpConstraint :=
  let club_players := List.filter (fun p => (team p =? club)%Z) (rows players) in
  mkConstraint (count_terms club_players) LpConstraintLE 3%Z.

Definition build_problem (players : Frame Player) (budget_million : Q) : LpProblem :=
  {| variables := dict_keys [] (map id (rows players));
     objective := map (fun p => (id p, exp_pts_window p)) (rows players);
     constraints :=
       [mkConstraint (count_terms (rows players)) LpConstraintEQ 15%Z]
       ++ map (position_constraint players) position_items
       ++ [mkConstraint (map (fun p => (id p, now_cost p)) (rows players))
             LpConstraintLE (budget_units_of budget_million)]
       ++ map (club_constraint players) (unique (map team (rows players))) |}.

(** the external solver ([pulp.PULP_CBC_CMD]): the terminal status and
    the value of each variable *)
Definition Solver : Type := LpProblem -> LpStatus * (Z -> Q).

(** [pulp.LpStatus[status]] *)
Definition LpStatus_name (st : LpStatus) : string :=
  match st with
  | LpStatusNotSolved => "Not Solved"
  | LpStatusOptimal => "Optimal"
  | LpStatusInfeasible => "Infeasible"
  | LpStatusUnbounded => "Unbounded"
  | LpStatusUndefined => "Undefined"
  end.


Definition objective_value (x : Z -> Q) (ts : list (Z * Q)) : Q :=
  sum_Q (map (fun t => (snd t * x (fst t))%Q) ts).

(** [players['id'].isin(selected_ids)] *)
Definition isin (ids : list Z) (p : Player) : bool := existsb (Z.eqb (id p)) ids.

Definition _solve_with_mip (cbc : Solver) (players : Frame Player)
    (budget_million : Q) : result SquadResult :=
  let prob := build_problem players budget_million in
  let '(status, x) := cbc prob in
  match status with
  | LpStatusOptimal =>
    let selected_ids := List.filter (fun v => Qeq_bool (x v) 1) (variables prob) in
    if negb (length selected_ids =? 15)%nat then
      Raise (RuntimeError (InvalidSolution (length selected_ids)))
    else
      let squad := with_position_column (columns players)
                     (List.filter (isin selected_ids) (rows players)) in
      Ok (build_result squad
            (fun _ => mkDetails "mip" (LpStatus_name status)
                        (objective_value x (objective prob))))
  | LpStatusInfeasible => Raise (InfeasibleError NoFeasibleSolution)
  | _ => Raise (RuntimeError (SolverFailed status))
  end.

(** ** Heuristic solver: [_solve_with_ga] *)

(** stable insertion sort: the row order [sort_values] gives for the
    key order [le] when equal keys keep their incoming order *)
Fixpoint insert_by {A : Type} (le : A -> A -> bool) (x : A) (l : list A) : list A :=
  match l with
  | [] => [x]
  | y :: l' => if le x y then x :: l else y :: insert_by le x l'
  end.

Definition sort_by {A : Type} (le : A -> A -> bool) (l : list A) : list A :=
  fold_right (insert_by le) [] l.

(** [exp_pts_window / now_cost] as the float division computes it: a
    zero cost gives an infinity or nan *)
Inductive ratio : Type := RPosInf | RFin (q : Q) | RNegInf | RNaN.

Definition Qltb (a b : Q) : bool := negb (Qle_bool b a).

Definition value_of (p : Player) : ratio :=
  if (now_cost p =? 0)%Z then
    if Qltb 0 (exp_pts_window p) then RPosInf
    else if Qltb (exp_pts_window p) 0 then RNegInf
    else RNaN
  else RFin (exp_pts_window p / inject_Z (now_cost p))%Q.

(** [a] is placed strictly before [b] by a descending sort, nan last *)
Definition ratio_before (a b : ratio) : bool :=
  match a, b with
  | RPosInf, RPosInf => false
  | RPosInf, _ => true
  | RFin _, RPosInf => false
  | RFin x, RFin y => Qltb y x
  | RFin _, _ => true
  | RNegInf, RNaN => true
  | RNegInf, _ => false
  | RNaN, _ => false
  end.

(** key order of [sort_values(['value', 'exp_pts_window'], ascending=[False, False])] *)
Definition by_value_then_points (a b : Player) : bool :=
  ratio_before (value_of a) (value_of b)
  || (negb (ratio_before (value_of b) (value_of a))
      && Qle_bool (exp_pts_window b) (exp_pts_window a)).

(** key order of [sort_values('now_cost')] *)
Definition by_cost (a b : Player) : bool := (now_cost a <=? now_cost b)%Z.

Record ga_state : Type := mkGa {
  selected_players : list Player;
  remaining_budget : Z;
  count : nat
}.

(** [current_clubs.value_counts().get(player['team'], 0)], 0 for no selection yet *)
Definition club_count (selected : list Player) (t : Z) : nat :=
  length (List.filter (fun p => (team p =? t)%Z) selected).

(** [selected_players.append(...); remaining_budget -= cost; count += 1] *)
Definition take_player (player : Player) (st : ga_state) : ga_state :=
  {| selected_players := selected_players st ++ [player];
     remaining_budget := (remaining_budget st - now_cost player)%Z;
     count := S (count st) |}.

(** first loop over the ranked candidates of one position *)
Fixpoint first_pass (limit : nat) (candidates : list Player) (st : ga_state) : ga_state :=
  match candidates with
  | [] => st
  | player :: rest =>
    if (limit <=? count st)%nat then st
    else if (now_cost player <=? remaining_budget st)%Z then
      if (club_count (selected_players st) (team player) <? 3)%nat then
        first_pass limit rest (take_player player st)
      else first_pass limit rest st
    else first_pass limit rest st
  end.

(** second loop, over the cheapest first, skipping players already selected *)
Fixpoint second_pass (limit : nat) (candidates : list Player) (st : ga_state) : ga_state :=
  match candidates with
  | [] => st
  | player :: rest =>
    if (limit <=? count st)%nat then st
    else if (now_cost player <=? remaining_budget st)%Z then
      if negb (existsb (Z.eqb (id player)) (map id (selected_players st))) then
        if (club_count (selected_players st) (team player) <? 3)%nat then
          second_pass limit rest (take_player player st)
        else second_pass limit rest st
      else second_pass limit rest st
    else second_pass limit rest st
  end.

(** [position_players['value'] = ...]: the stored cell is the rational
    quotient; the sort reads [value_of] *)
Definition with_value (p : Player) : Player :=
  set_num p "value" (exp_pts_window p / inject_Z (now_cost p))%Q.

(** the body of the loop over [position_mapping.items()] *)
Definition fill_position (players : Frame Player) (item : Z * Position)
    (acc : list Player * Z) : result (list Player * Z) :=
  let position_players :=
    map with_value (List.filter (fun p => (element_type p =? fst item)%Z) (rows players)) in
  let position_players := sort_by by_value_then_points position_players in
  let limit := position_limits (snd item) in
  let st1 := first_pass limit position_players (mkGa (fst acc) (snd acc) 0) in
  let st2 := if (count st1 <? limit)%nat
             then second_pass limit (sort_by by_cost position_players) st1
             else st1 in
  if (count st2 <? limit)%nat then
    Raise (InfeasibleError
             (CannotFill (snd item) limit (count st2) (remaining_budget st2)))
  else Ok (selected_players st2, remaining_budget st2).

Fixpoint fill_positions (players : Frame Player) (items : list (Z * Position))
    (acc : list Player * Z) : result (list Player * Z) :=
  match items with
  | [] => Ok acc
  | item :: items' =>
    acc' ← fill_position players item acc;
    fill_positions players items' acc'
  end.

Definition _solve_with_ga (players : Frame Player) (budget_million : Q) : result SquadResult :=
  let budget_units := budget_units_of budget_million in
  acc ← fill_positions players position_items ([], budget_units);
  let selected := fst acc in
  if negb (length selected =? 15)%nat then
    Raise (InfeasibleError (NotFifteen (length selected)))
  else
    let squad := with_position_column (columns players ++ ["value"]) selected in
    Ok (build_result squad (fun expected => mkDetails "ga" "optimal" expected)).

(** ** Entry point: [select_initial_squad] *)

Inductive solver_choice : Type :=
| SolverName (s : string)
| SolverNone
| SolverCallable (f : Frame Player -> Q -> result SquadResult).

(** Steps 2 and 3: expected points, then the chosen solver *)
Definition run_solver (cbc : Solver) (players : Frame Player)
    (fixtures : Frame Fixture) (gw_start gw_end : Z) (budget_million : Q)
    (solver : solver_choice) (expected_points_cols : option (list string))
    : result SquadResult :=
  players_work ← prepare_expected_points players fixtures gw_start gw_end expected_points_cols;
  match solver with
  | SolverNone => _solve_with_mip cbc players_work budget_million
  | SolverName s =>
    if String.eqb s "mip" then _solve_with_mip cbc players_work budget_million
    else if String.eqb s "ga" then _solve_with_ga players_work budget_million
    else Raise (ValueError (UnknownSolver s))
  | SolverCallable f => f players_work budget_million
  end.

Definition select_initial_squad (cbc : Solver) (players : Frame Player)
    (fixtures : Frame Fixture) (gw_start gw_end : Z) (budget_million : Q)
    (solver : solver_choice) (expected_points_cols : option (list string))
    : list warning * result SquadResult :=
  let '(log, checked) := _validate_inputs players fixtures gw_start gw_end budget_million in
  (log,
   _ ← checked;
   run_solver cbc players fixtures gw_start gw_end budget_million solver
     expected_points_cols).

(** ** Starting eleven: [select_starting_eleven] and [_optimize_formation] *)

Record StartingElevenResult : Type := mkStartingEleven {
  starting_eleven : Frame Player;
  bench : Frame Player;
  formation : string;
  captain_id : Z;
  vice_captain_id : Z;
  expected_points_gw1 : Q;
  formation_breakdown : Position -> nat
}.

(** (DEF, MID, FWD); the goalkeeper count is always 1 *)
Definition allowed_formations : list (nat * nat * nat) :=
  [(3, 4, 3); (3, 5, 2); (4, 3, 3); (4, 4, 2);
   (4, 5, 1); (5, 2, 3); (5, 3, 2); (5, 4, 1)]%nat.

(** key order of [sort_values(gw_col, ascending=False)] *)
Definition by_points_desc (gw_col : string) (a b : Player) : bool :=
  Qle_bool (num b gw_col) (num a gw_col).

(** one step of the loop adding up [total_points] *)
Definition add_player_points (gw_col : string)
    (captain_multiplier vice_captain_multiplier : Q) (captain vice : Z)
    (total_points : Q) (player : Player) : Q :=
  let base_points := num player gw_col in
  if (id player =? captain)%Z then
    (total_points + base_points * captain_multiplier)%Q
  else if (id player =? vice)%Z then
    (total_points + base_points * vice_captain_multiplier)%Q
  else (total_points + base_points)%Q.

(** what [_optimize_formation] returns *)
Record lineup : Type := mkLineup {
  l_starting_xi : Frame Player;
  l_bench : Frame Player;
  l_points : Q;
  l_captain : Z;
  l_vice_captain : Z
}.

Definition _optimize_formation (squad_df : Frame Player)
    (def_count mid_count fwd_count : nat) (gw_col : string)
    (captain_multiplier vice_captain_multiplier : Q) : result lineup :=
  if negb (has_col "position" squad_df) then Raise (KeyError ["position"]) else
  let gk_players := List.filter (has_position GK) (rows squad_df) in
  let def_players := List.filter (has_position DEF) (rows squad_df) in
  let mid_players := List.filter (has_position MID) (rows squad_df) in
  let fwd_players := List.filter (has_position FWD) (rows squad_df) in
  if (length gk_players <? 1)%nat || (length def_players <? def_count)%nat
     || (length mid_players <? mid_count)%nat || (length fwd_players <? fwd_count)%nat
  then Raise (ValueError (NotEnoughPlayers def_count mid_count fwd_count)) else
  if negb (has_col gw_col squad_df) then Raise (KeyError [gw_col]) else
  let sorted := sort_by (by_points_desc gw_col) in
  let selected_gk := firstn 1 (sorted gk_players) in
  let selected_def := firstn def_count (sorted def_players) in
  let selected_mid := firstn mid_count (sorted mid_players) in
  let selected_fwd := firstn fwd_count (sorted fwd_players) in
  let starting_xi := selected_gk ++ selected_def ++ selected_mid ++ selected_fwd in
  if negb (has_col "id" squad_df) then Raise (KeyError ["id"]) else
  let selected_ids := map id starting_xi in
  let bench := sorted (List.filter (fun p => negb (isin selected_ids p)) (rows squad_df)) in
  match sorted starting_xi with
  | captain :: vice :: _ =>
    let captain_id := id captain in
    let vice_captain_id := id vice in
    let total_points :=
      fold_left (add_player_points gw_col captain_multiplier vice_captain_multiplier
                   captain_id vice_captain_id) starting_xi 0%Q in
    Ok {| l_starting_xi := mkFrame (columns squad_df) starting_xi;
          l_bench := mkFrame (columns squad_df) bench;
          l_points := total_points;
          l_captain := captain_id;
          l_vice_captain := vice_captain_id |}
  | _ => Raise IndexError
  end.

(** the state of the search: the [best_*] variables *)
Record best : Type := mkBest {
  best_formation : option (nat * nat * nat);
  best_lineup : option lineup;
  best_points : Q
}.

(** the loop over the formations, [except ValueError: continue] *)
Fixpoint try_formations (squad_df : Frame Player) (gw_col : string)
    (captain_multiplier vice_captain_multiplier : Q)
    (formations : list (nat * nat * nat)) (b : best) : result best :=
  match formations with
  | [] => Ok b
  | (def_count, mid_count, fwd_count) :: formations' =>
    let continue := try_formations squad_df gw_col captain_multiplier
                      vice_captain_multiplier formations' in
    match _optimize_formation squad_df def_count mid_count fwd_count gw_col
            captain_multiplier vice_captain_multiplier with
    | Ok l =>
      if Qltb (best_points b) (l_points l) then
        continue {| best_formation := Some (def_count, mid_count, fwd_count);
                    best_lineup := Some l;
                    best_points := l_points l |}
      else continue b
    | Raise (ValueError _) => continue b
    | Raise e => Raise e
    end
  end.

(** [str(n)] for a count *)
Definition nat_str (n : nat) : string := NilEmpty.string_of_uint (Nat.to_uint n).

(** [f"{d}-{m}-{f}"] *)
Definition formation_str (fm : nat * nat * nat) : string :=
  let '(d, m, f) := fm in
  nat_str d ++ "-" ++ nat_str m ++ "-" ++ nat_str f.

(** the column of round points: [ep_gw{gameweek}], or the window
    average when the squad has no such column *)
Definition with_gw_column (squad_df : Frame Player) (gameweek : Z) : result (Frame Player) :=
  let gw_col := ep_gw gameweek in
  if has_col gw_col squad_df then Ok squad_df
  else if negb (has_col "exp_pts_window" squad_df) then Raise (KeyError ["exp_pts_window"])
  else
    let n := length (List.filter (String.prefix "ep_gw") (columns squad_df)) in
    match n, rows squad_df with
    | O, _ :: _ => Raise NonFinite
    | _, _ =>
      Ok (set_column squad_df gw_col
            (map (fun p => (exp_pts_window p / inject_Z (Z.of_nat n))%Q) (rows squad_df)))
    end.

Definition select_starting_eleven (squad_result : SquadResult) (gameweek : Z)
    (captain_multiplier vice_captain_multiplier : Q) : result StartingElevenResult :=
  squad_df ← with_gw_column (squad_df squad_result) gameweek;
  b ← try_formations squad_df (ep_gw gameweek) captain_multiplier
        vice_captain_multiplier allowed_formations (mkBest None None (-1)%Q);
  match best_formation b, best_lineup b with
  | Some fm, Some l =>
    Ok {| starting_eleven := l_starting_xi l;
          bench := l_bench l;
          formation := formation_str fm;
          captain_id := l_captain l;
          vice_captain_id := l_vice_captain l;
          expected_points_gw1 := best_points b;
          formation_breakdown := fun pos =>
            match pos with
            | GK => 1%nat
            | DEF => fst (fst fm)
            | MID => snd (fst fm)
            | FWD => snd fm
            end |}
  | _, _ => Raise (ValueError NoValidFormation)
  end.

(** ** Vocabulary of the statements *)





(** the typed part of a row *)
Definition core (p : Player) : Z * Z * Z * Z * option Q * option Position :=
  (id p, element_type p, team p, now_cost p, total_points p, position p).

(** ** Data of the test suite (test_squad_selection.py) *)

Definition test_player (i et t cost : Z) (points : Z) : Player :=
  mkPlayer i et t cost (Some (inject_Z points)) None (fun _ => 0%Q).

Definition test_columns : list string :=
  ["id"; "element_type"; "team"; "now_cost"; "first_name"; "second_name"; "total_points"].

(** [create_minimal_test_dataset()] *)
Definition create_minimal_test_dataset : Frame Player :=
  mkFrame test_columns
    (map (fun i => test_player (i + 1) 1 (i mod 4 + 1) (40 + i * 2) (100 + i * 10))
         (py_range 0 4)
     ++ map (fun i => test_player (i + 5) 2 (i mod 4 + 1) (40 + (i mod 3) * 2) (80 + i * 5))
         (py_range 0 8)
     ++ map (fun i => test_player (i + 13) 3 (i mod 3 + 1) (50 + i * 5) (120 + i * 15))
         (py_range 0 6)
     ++ map (fun i => test_player (i + 19) 4 (i mod 2 + 1) (60 + i * 10) (150 + i * 20))
         (py_range 0 4))%Z.

Definition fixture_columns : list string :=
  ["event"; "team_h"; "team_a"; "team_h_difficulty"; "team_a_difficulty"].

(** [create_fixtures_dummy()] *)
Definition create_fixtures_dummy : Frame Fixture :=
  mkFrame fixture_columns [mkFixture 1 1 2 3 2; mkFixture 2 2 3 2 4]%Z.



(** the required columns the table lacks, in the order of [required_cols] *)
Definition missing_cols (players : Frame Player) : list string :=
  List.filter (fun col => negb (has_col col players)) required_cols.

(** [test_parameter_validation]: the second row is given the id of the first *)
Definition players_dup : Frame Player :=
  mkFrame test_columns
    (match rows create_minimal_test_dataset with
     | p0 :: p1 :: rest =>
       p0 :: mkPlayer (id p0) (element_type p1) (team p1) (now_cost p1)
               (total_points p1) (position p1) (num p1) :: rest
     | l => l
     end).

(** [test_case_4_missing_column]: [players.drop('element_type', axis=1)] *)
Definition players_missing_col : Frame Player :=
  mkFrame ["id"; "team"; "now_cost"; "first_name"; "second_name"; "total_points"]
    (rows create_minimal_test_dataset).

(** ** Feasible assignments of the integer program *)





(** the ids [_solve_with_mip] reads off the solver's assignment *)
Definition selected_ids_of (x : Z -> Q) (prob : LpProblem) : list Z :=
  List.filter (fun v => Qeq_bool (x v) 1) (variables prob).



(** a pool where only [ep_gw1] of the four round columns exists, and
    whose second player has no [total_points] *)
Definition partial_pool : Frame Player :=
  mkFrame (test_columns ++ ["ep_gw1"])
    [mkPlayer 1 1 1 40 (Some 100%Q) None
       (fun c => if String.eqb c "ep_gw1" then 25%Q else 0%Q);
     mkPlayer 2 1 2 42 None None
       (fun c => if String.eqb c "ep_gw1" then 25%Q else 0%Q)].

(** the players a lineup starts with and leaves out, for the statement
    of the lineup properties *)
Definition starters (r : StartingElevenResult) : list Player := rows (starting_eleven r).
Definition benched (r : StartingElevenResult) : list Player := rows (bench r).

(** ** The heuristic, as the specification words it *)











(** ** A stand-in for the external solver, and a pool to run on *)





(** 25 players of 10 clubs: 4 goalkeepers, 8 defenders, 8 midfielders,
    5 forwards *)
Definition league_pool : Frame Player :=
  mkFrame test_columns
    (map (fun i => test_player i
                     (if i <=? 4 then 1 else if i <=? 12 then 2
                      else if i <=? 20 then 3 else 4)
                     (i mod 10 + 1) (40 + (i mod 5) * 5) (60 + 7 * i))
         (py_range 1 26))%Z.

Definition league_fixtures : Frame Fixture :=
  mkFrame fixture_columns
    [mkFixture 1 1 2 2 4; mkFixture 1 3 4 3 3; mkFixture 1 5 6 1 5;
     mkFixture 2 2 1 3 2; mkFixture 2 4 3 4 2; mkFixture 3 7 8 2 3]%Z.

(** the squad the heuristic picks from the league pool *)
Definition league_squad_ids : list Z :=
  [4; 2; 10; 12; 11; 6; 7; 20; 16; 15; 17; 18; 25; 22; 21]%Z.

Definition no_solver : Solver := fun _ => (LpStatusNotSolved, fun _ => 0%Q).


(** the score [_optimize_formation] gives a formation, when it fits *)
Definition formation_score (squad_df : Frame Player) (gw_col : string)
    (captain_multiplier vice_captain_multiplier : Q) (fm : nat * nat * nat) : option Q :=
  match _optimize_formation squad_df (fst (fst fm)) (snd (fst fm)) (snd fm) gw_col
          captain_multiplier vice_captain_multiplier with
  | Ok l => Some (l_points l)
  | Raise _ => None
  end.

Definition empty_result : SquadResult :=
  build_result (mkFrame [] []) (fun expected => mkDetails EmptyString EmptyString expected).

(** the result of a run, or the empty result when it raised *)
Definition result_of (c : result SquadResult) : SquadResult :=
  match c with
  | Ok r => r
  | Raise _ => empty_result
  end.

(** the squad the heuristic selects from the league pool *)
Definition league_squad : SquadResult :=
  result_of (run_solver no_solver league_pool league_fixtures 1 4 100
               (SolverName "ga") None).

(** the league pool in a slump: the four round columns exist and every
    player is expected to lose half a point per round *)
Definition slump_pool : Frame Player :=
  mkFrame (test_columns ++ default_expected_points_cols 1 4)
    (map (fun p => mkPlayer (id p) (element_type p) (team p) (now_cost p)
                     (total_points p) (position p) (fun _ => (-1 # 2)%Q))
         (rows league_pool)).

Definition slump_squad : SquadResult :=
  result_of (run_solver no_solver slump_pool league_fixtures 1 4 100
               (SolverName "ga") None).

(** * Properties *)


(** unfold the bind of [result] in a hypothesis *)
Ltac run_bind H := unfold mbind, result_bind in H; cbv beta iota in H.

(** ** Fixture weighting *)

Section FixtureWeighting.

Variable fx : Frame Fixture.






End FixtureWeighting.









Example fixture_multiplier_gw1 :
  firstn 4 (_calculate_fixture_multiplier create_minimal_test_dataset create_fixtures_dummy 1)
  = [difficulty_multiplier 3; difficulty_multiplier 2; 1%Q; 1%Q].
Proof. vm_compute. reflexivity. Qed.






(** ** Input validation *)

Lemma duplicated_any_false (l : list Z) : duplicated_any l = false <-> List.NoDup l.
Proof.
  induction l as [|x l IH]; simpl.
  - split; [constructor | reflexivity].
  - rewrite orb_false_iff, IH. split.
    + intros [Hx Hl]. constructor; [|assumption].
      intros Hin. apply not_true_iff_false in Hx. apply Hx.
      apply existsb_exists. exists x. split; [assumption | apply Z.eqb_refl].
    + intros H. inversion H as [|? ? Hx Hl]; subst. split; [|assumption].
      apply not_true_iff_false. intros Hex. apply existsb_exists in Hex.
      destruct Hex as (y & Hy & Heq). apply Z.eqb_eq in Heq. now subst.
Qed.

Lemma duplicated_any_true (l : list Z) : duplicated_any l = true <-> ~ List.NoDup l.
Proof.
  rewrite <- duplicated_any_false. destruct (duplicated_any l); split; congruence.
Qed.

Lemma window_check (gw_start gw_end : Z) :
  (gw_start <? 1)%Z || (gw_end <? gw_start)%Z || (38 <? gw_end)%Z = true
  <-> (gw_start < 1 \/ gw_end < gw_start \/ 38 < gw_end)%Z.
Proof. rewrite !orb_true_iff, !Z.ltb_lt. tauto. Qed.

(** C5: the checks run before the solver, in this order.  A missing
    required column raises the schema error naming exactly the missing
    ones; with the columns present a duplicated id raises the data error
    whatever the window, the budget and the other fields are; then a
    window outside 1..38 or with start > end, and then a budget that is
    not positive, each raise their range error; a pool of more than 1000
    rows only logs a warning, and the run goes on to the solver. *)
Theorem validation_contract (cbc : Solver) (players : Frame Player)
    (fixtures : Frame Fixture) (gw_start gw_end : Z) (budget_million : Q)
    (solver : solver_choice) (cols : option (list string)) :
  let out := select_initial_squad cbc players fixtures gw_start gw_end
               budget_million solver cols in
  let ids := map id (rows players) in
  let bad_window := (gw_start < 1 \/ gw_end < gw_start \/ 38 < gw_end)%Z in
  (forall c, In c (missing_cols players)
             <-> In c required_cols /\ has_col c players = false)
  /\ (missing_cols players <> [] ->
      out = ([], Raise (KeyError (missing_cols players))))
  /\ (missing_cols players = [] -> ~ List.NoDup ids ->
      out = ([], Raise (ValueError DuplicatePlayerIds)))
  /\ (missing_cols players = [] -> List.NoDup ids -> bad_window ->
      snd out = Raise (ValueError InvalidGameweekRange))
  /\ (missing_cols players = [] -> List.NoDup ids -> ~ bad_window ->
      (budget_million <= 0)%Q ->
      snd out = Raise (ValueError BudgetMustBePositive))
  /\ (missing_cols players = [] -> List.NoDup ids -> ~ bad_window ->
      (0 < budget_million)%Q ->
      out = (if (1000 <? length (rows players))%nat then [PoolExceeds1000] else [],
             run_solver cbc players fixtures gw_start gw_end budget_million solver cols)).
Proof.
  cbv zeta. unfold select_initial_squad, _validate_inputs.
  fold (missing_cols players).
  split.
  { intros c. unfold missing_cols. rewrite filter_In, negb_true_iff. reflexivity. }
  split.
  { intros H. destruct (missing_cols players); [congruence | reflexivity]. }
  split.
  { intros -> Hd. apply duplicated_any_true in Hd. now rewrite Hd. }
  split; [|split].
  - intros -> Hn Hb. apply duplicated_any_false in Hn. rewrite Hn.
    apply window_check in Hb. now rewrite Hb.
  - intros -> Hn Hb Hq. apply duplicated_any_false in Hn. rewrite Hn.
    rewrite <- window_check in Hb. apply not_true_is_false in Hb. rewrite Hb.
    apply Qle_bool_iff in Hq. now rewrite Hq.
  - intros -> Hn Hb Hq. apply duplicated_any_false in Hn. rewrite Hn.
    rewrite <- window_check in Hb. apply not_true_is_false in Hb. rewrite Hb.
    destruct (Qle_bool budget_million 0) eqn:Eq.
    { apply Qle_bool_iff in Eq. exfalso. now apply (Qlt_not_le _ _ Hq). }
    reflexivity.
Qed.

Example validation_missing_column cbc :
  select_initial_squad cbc players_missing_col create_fixtures_dummy 1 4 100
    SolverNone None
  = ([], Raise (KeyError ["element_type"])).
Proof. reflexivity. Qed.

Example validation_duplicate_ids cbc :
  select_initial_squad cbc players_dup create_fixtures_dummy 1 4 100 SolverNone None
  = ([], Raise (ValueError DuplicatePlayerIds)).
Proof. reflexivity. Qed.

Example validation_window cbc :
  select_initial_squad cbc create_minimal_test_dataset create_fixtures_dummy 5 3 100
    SolverNone None
  = ([], Raise (ValueError InvalidGameweekRange)).
Proof. reflexivity. Qed.

Example validation_budget cbc :
  select_initial_squad cbc create_minimal_test_dataset create_fixtures_dummy 1 4 (-10)
    SolverNone None
  = ([], Raise (ValueError BudgetMustBePositive)).
Proof. reflexivity. Qed.

(** ** Exact solver *)


(** C6: an infeasible program raises the infeasibility error; any
    other status short of optimal raises the solver error carrying that
    status; an optimal status with a selection of other than 15 ids
    raises the solver-consistency error and no result is returned. *)
Theorem exact_solver_failures (cbc : Solver) (players : Frame Player)
    (budget_million : Q) :
  let prob := build_problem players budget_million in
  let status := fst (cbc prob) in
  let selected_ids := selected_ids_of (snd (cbc prob)) prob in
  (status = LpStatusInfeasible ->
   _solve_with_mip cbc players budget_million
   = Raise (InfeasibleError NoFeasibleSolution))
  /\ (status <> LpStatusOptimal -> status <> LpStatusInfeasible ->
      _solve_with_mip cbc players budget_million
      = Raise (RuntimeError (SolverFailed status)))
  /\ (status = LpStatusOptimal -> length selected_ids <> 15%nat ->
      _solve_with_mip cbc players budget_million
      = Raise (RuntimeError (InvalidSolution (length selected_ids))))
  /\ (forall r, _solve_with_mip cbc players budget_million = Ok r ->
      status = LpStatusOptimal /\ length selected_ids = 15%nat).
Proof.
  cbv zeta. unfold _solve_with_mip, selected_ids_of.
  destruct (cbc (build_problem players budget_million)) as [status x]. simpl.
  split; [intros ->; reflexivity|].
  split; [intros H1 H2; destruct status; congruence|].
  split.
  - intros -> Hn. apply Nat.eqb_neq in Hn. now rewrite Hn.
  - intros r Hr. destruct status; try discriminate. split; [reflexivity|].
    destruct (length _ =? 15)%nat eqn:E; [now apply Nat.eqb_eq in E | discriminate].
Qed.

(** a solver that reports infeasibility, and one that reports an
    optimum selecting nobody *)
Example exact_solver_infeasible :
  _solve_with_mip (fun _ => (LpStatusInfeasible, fun _ => 0%Q)) league_pool 100
  = Raise (InfeasibleError NoFeasibleSolution).
Proof. reflexivity. Qed.

Example exact_solver_unbounded :
  _solve_with_mip (fun _ => (LpStatusUnbounded, fun _ => 0%Q)) league_pool 100
  = Raise (RuntimeError (SolverFailed LpStatusUnbounded)).
Proof. reflexivity. Qed.

Example exact_solver_wrong_count :
  _solve_with_mip (fun _ => (LpStatusOptimal, fun _ => 0%Q)) league_pool 100
  = Raise (RuntimeError (InvalidSolution 0)).
Proof. vm_compute. reflexivity. Qed.

(** ** Expected-points builder *)





Lemma set_column_core df c vals :
  length vals = length (rows df) ->
  map core (rows (set_column df c vals)) = map core (rows df).
Proof.
  unfold set_column. simpl. generalize (rows df). intros l. revert vals.
  induction l as [|p l IH]; intros [|v vals] H; simpl in *; try congruence.
  f_equal. apply IH. congruence.
Qed.





Section Builder.

Variable fixtures : Frame Fixture.
Variable gw_start : Z.



End Builder.








Lemma map_num_ext (r r' : Player) cols :
  (forall c, In c cols -> num r' c = num r c) ->
  map (num r') cols = map (num r) cols.
Proof. intros H. apply map_ext_in. assumption. Qed.






(** the partial pool, computed: the existing [ep_gw1] = 25 is replaced,
    and the player without [total_points] gets 50/38 per round *)
Example partial_pool_values :
  match _incorporate_fixture_difficulty partial_pool create_fixtures_dummy 1 4
          (default_expected_points_cols 1 4) with
  | Ok out =>
    map (fun p => (Qred (num p "ep_gw1"), Qred (num p "ep_gw3"))) (rows out)
    = [(Qred (100 / 38 * 1), Qred (100 / 38)); (Qred (50 / 38 * (12 # 10)), Qred (50 / 38))]
  | Raise _ => False
  end.
Proof. vm_compute. reflexivity. Qed.

(** ** Sorting *)

Lemma insert_by_perm {A : Type} (le : A -> A -> bool) x l :
  Permutation (insert_by le x l) (x :: l).
Proof.
  induction l as [|y l IH]; simpl; [reflexivity|].
  destruct (le x y); [reflexivity|].
  rewrite IH. apply perm_swap.
Qed.

Lemma sort_by_perm {A : Type} (le : A -> A -> bool) l :
  Permutation (sort_by le l) l.
Proof.
  induction l as [|x l IH]; simpl; [reflexivity|].
  unfold sort_by in *. simpl. rewrite insert_by_perm. now constructor.
Qed.

Lemma filter_perm {A : Type} (f : A -> bool) l l' :
  Permutation l l' -> Permutation (List.filter f l) (List.filter f l').
Proof.
  induction 1 as [|x l l' _ IH|x y l|l l' l'' _ IH1 _ IH2]; simpl.
  - reflexivity.
  - destruct (f x); [now constructor | assumption].
  - destruct (f x), (f y); try reflexivity. apply perm_swap.
  - now transitivity (List.filter f l').
Qed.

Lemma filter_split_perm {A : Type} (f : A -> bool) l :
  Permutation l (List.filter f l ++ List.filter (fun x => negb (f x)) l).
Proof.
  induction l as [|x l IH]; simpl; [reflexivity|].
  destruct (f x); simpl.
  - now constructor.
  - now apply Permutation_cons_app.
Qed.

Lemma perm_merge {A : Type} (a b s1 t1 s2 t2 : list A) :
  Permutation a (s1 ++ t1) -> Permutation b (s2 ++ t2) ->
  Permutation (a ++ b) ((s1 ++ s2) ++ (t1 ++ t2)).
Proof.
  intros Ha Hb. rewrite Ha, Hb. rewrite <- !app_assoc.
  apply Permutation_app_head. apply Permutation_app_swap_app.
Qed.

Lemma NoDup_app_disjoint {A : Type} (l1 l2 : list A) a :
  List.NoDup (l1 ++ l2) -> In a l1 -> ~ In a l2.
Proof.
  induction l1 as [|x l1 IH]; simpl; [tauto|].
  intros H [->|Hin] H2; inversion H; subst.
  - match goal with Hn : ~ In a (l1 ++ l2) |- _ => apply Hn end.
    apply in_or_app. now right.
  - now apply IH.
Qed.

Lemma In_firstn_orig {A : Type} n (l : list A) x : In x (firstn n l) -> In x l.
Proof.
  revert l. induction n as [|n IH]; intros [|y l]; simpl; try tauto.
  intros [->|H]; [now left | right; now apply IH].
Qed.

Lemma filter_all {A : Type} (f : A -> bool) l :
  (forall x, In x l -> f x = true) -> List.filter f l = l.
Proof.
  induction l as [|x l IH]; simpl; intros H; [reflexivity|].
  rewrite (H x) by now left. f_equal. apply IH. intros y Hy. apply H. now right.
Qed.

Lemma filter_none {A : Type} (f : A -> bool) l :
  (forall x, In x l -> f x = false) -> List.filter f l = [].
Proof.
  induction l as [|x l IH]; simpl; intros H; [reflexivity|].
  rewrite (H x) by now left. apply IH. intros y Hy. apply H. now right.
Qed.

Lemma isin_In ids p : isin ids p = true <-> In (id p) ids.
Proof.
  unfold isin. rewrite existsb_exists. split.
  - intros (y & Hy & E). apply Z.eqb_eq in E. now subst.
  - intros H. exists (id p). split; [assumption | apply Z.eqb_refl].
Qed.

(** ** Starting eleven *)

Section Formation.

Variable squad : Frame Player.
Variable gw_col : string.
Variables captain_multiplier vice_captain_multiplier : Q.

Let sorted := sort_by (A := Player) (by_points_desc gw_col).
Let group (pos : Position) := sorted (List.filter (has_position pos) (rows squad)).
Let eleven (d m f : nat) :=
  firstn 1 (group GK) ++ firstn d (group DEF)
  ++ firstn m (group MID) ++ firstn f (group FWD).

(** what a successful call computed *)
Lemma optimize_formation_ok d m f l :
  _optimize_formation squad d m f gw_col captain_multiplier vice_captain_multiplier = Ok l ->
  let xi := eleven d m f in
  (1 <= length (group GK) /\ d <= length (group DEF)
   /\ m <= length (group MID) /\ f <= length (group FWD))%nat
  /\ rows (l_starting_xi l) = xi
  /\ rows (l_bench l)
     = sorted (List.filter (fun p => negb (isin (map id xi) p)) (rows squad))
  /\ exists c v tl,
       sorted xi = c :: v :: tl /\ l_captain l = id c /\ l_vice_captain l = id v
       /\ l_points l
          = fold_left (add_player_points gw_col captain_multiplier
                         vice_captain_multiplier (id c) (id v)) xi 0%Q.
Proof.
  unfold _optimize_formation, eleven, group, sorted.
  destruct (negb (has_col "position" squad)); [discriminate|].
  destruct (_ || _ || _ || _) eqn:Elen; [discriminate|].
  destruct (negb (has_col gw_col squad)); [discriminate|].
  destruct (negb (has_col "id" squad)); [discriminate|].
  intros H.
  apply orb_false_iff in Elen. destruct Elen as [Elen E4].
  apply orb_false_iff in Elen. destruct Elen as [Elen E3].
  apply orb_false_iff in Elen. destruct Elen as [E1 E2].
  apply Nat.ltb_ge in E1, E2, E3, E4.
  split.
  { rewrite !(Permutation_length (sort_by_perm (by_points_desc gw_col) _)). auto. }
  match type of H with
  | match ?s with _ => _ end = _ => destruct s as [|c [|v tl]] eqn:Es
  end; try discriminate H.
  injection H as <-. simpl.
  split; [reflexivity|]. split; [reflexivity|].
  exists c, v, tl. auto.
Qed.

Lemma has_position_inj p pos pos' :
  has_position pos p = true -> has_position pos' p = true -> pos = pos'.
Proof.
  unfold has_position. destruct (position p) as [[]|]; destruct pos, pos'; simpl;
    congruence.
Qed.

Lemma group_perm pos :
  Permutation (group pos) (List.filter (has_position pos) (rows squad)).
Proof. apply sort_by_perm. Qed.

Lemma group_position pos p : In p (group pos) -> has_position pos p = true.
Proof.
  intros H. apply (Permutation_in _ (group_perm pos)) in H.
  now apply filter_In in H.
Qed.

(** the rows of the squad: the four groups and the players of no group *)
Lemma squad_groups :
  exists others,
    Permutation (rows squad)
      (group GK ++ group DEF ++ group MID ++ group FWD ++ others)
    /\ forall p, In p others -> has_position GK p = false.
Proof.
  pose (rest1 := List.filter (fun p => negb (has_position GK p)) (rows squad)).
  pose (rest2 := List.filter (fun p => negb (has_position DEF p)) rest1).
  pose (rest3 := List.filter (fun p => negb (has_position MID p)) rest2).
  pose (rest4 := List.filter (fun p => negb (has_position FWD p)) rest3).
  assert (Hskip : forall pos pos' l, pos <> pos' ->
            List.filter (has_position pos)
              (List.filter (fun p => negb (has_position pos' p)) l)
            = List.filter (has_position pos) l).
  { intros pos pos' l Hne. induction l as [|p l IH]; simpl; [reflexivity|].
    destruct (has_position pos' p) eqn:E'; simpl.
    - destruct (has_position pos p) eqn:E; [|assumption].
      exfalso. apply Hne. eapply has_position_inj; eassumption.
    - now rewrite IH. }
  exists rest4. split.
  - rewrite (filter_split_perm (has_position GK) (rows squad)).
    rewrite (group_perm GK). apply Permutation_app_head. fold rest1.
    rewrite (filter_split_perm (has_position DEF) rest1).
    unfold rest1 at 1. rewrite Hskip by discriminate.
    rewrite (group_perm DEF). apply Permutation_app_head. fold rest2.
    rewrite (filter_split_perm (has_position MID) rest2).
    unfold rest2 at 1, rest1. rewrite !Hskip by discriminate.
    rewrite (group_perm MID). apply Permutation_app_head. fold rest1 rest2 rest3.
    rewrite (filter_split_perm (has_position FWD) rest3).
    unfold rest3 at 1, rest2, rest1. rewrite !Hskip by discriminate.
    rewrite (group_perm FWD). reflexivity.
  - intros p Hp. unfold rest4, rest3, rest2, rest1 in Hp.
    repeat (apply filter_In in Hp; destruct Hp as [Hp ?]).
    now apply negb_true_iff.
Qed.

(** on success the starting eleven and the bench split the squad *)
Lemma optimize_formation_partition d m f l :
  List.NoDup (map id (rows squad)) ->
  _optimize_formation squad d m f gw_col captain_multiplier vice_captain_multiplier = Ok l ->
  Permutation (rows (l_starting_xi l) ++ rows (l_bench l)) (rows squad)
  /\ length (rows (l_starting_xi l)) = (1 + d + m + f)%nat
  /\ length (List.filter (has_position GK) (rows (l_starting_xi l))) = 1%nat
  /\ l_captain l <> l_vice_captain l
  /\ In (l_captain l) (map id (rows (l_starting_xi l)))
  /\ In (l_vice_captain l) (map id (rows (l_starting_xi l))).
Proof.
  intros Hnd Hok.
  destruct (optimize_formation_ok d m f l Hok)
    as ((L1 & L2 & L3 & L4) & Hxi & Hbench & c & v & tl & Hs & Hc & Hv & _).
  cbv zeta in Hxi, Hbench, Hs. set (xi := eleven d m f) in *.
  destruct squad_groups as (others & Hperm & Hothers).
  set (rest := skipn 1 (group GK) ++ skipn d (group DEF)
               ++ skipn m (group MID) ++ skipn f (group FWD) ++ others).
  assert (Hsplit : Permutation (rows squad) (xi ++ rest)).
  { rewrite Hperm. unfold xi, eleven, rest.
    apply perm_merge; [now rewrite firstn_skipn|].
    apply perm_merge; [now rewrite firstn_skipn|].
    apply perm_merge; [now rewrite firstn_skipn|].
    rewrite <- (firstn_skipn f (group FWD)) at 1. now rewrite <- app_assoc. }
  assert (Hnd' : List.NoDup (map id xi ++ map id rest)).
  { rewrite <- map_app. eapply Permutation_NoDup; [|exact Hnd].
    now apply Permutation_map. }
  assert (Hbench' : Permutation (rows (l_bench l)) rest).
  { rewrite Hbench. unfold sorted. rewrite sort_by_perm.
    rewrite (filter_perm _ _ _ Hsplit), List.filter_app.
    rewrite filter_none, filter_all; [reflexivity| |].
    - intros p Hp. apply negb_true_iff. apply not_true_is_false.
      rewrite isin_In. intros Hin.
      apply (NoDup_app_disjoint _ _ _ Hnd' Hin). now apply in_map.
    - intros p Hp. apply negb_false_iff. apply isin_In. now apply in_map. }
  split; [rewrite Hxi, Hbench'; now symmetry|].
  split.
  { rewrite Hxi. unfold xi, eleven. rewrite !length_app, !firstn_length_le by assumption.
    lia. }
  split.
  { rewrite Hxi. unfold xi, eleven. rewrite !List.filter_app.
    rewrite (filter_all _ (firstn 1 (group GK))).
    2:{ intros p Hp. apply group_position. eapply In_firstn_orig. eassumption. }
    rewrite !filter_none.
    - rewrite !app_nil_r. now apply firstn_length_le.
    - intros p Hp. apply In_firstn_orig, group_position in Hp.
      apply not_true_is_false. intros H.
      discriminate (has_position_inj _ _ _ H Hp).
    - intros p Hp. apply In_firstn_orig, group_position in Hp.
      apply not_true_is_false. intros H.
      discriminate (has_position_inj _ _ _ H Hp).
    - intros p Hp. apply In_firstn_orig, group_position in Hp.
      apply not_true_is_false. intros H.
      discriminate (has_position_inj _ _ _ H Hp). }
  assert (Hsx : Permutation (c :: v :: tl) xi).
  { rewrite <- Hs. apply sort_by_perm. }
  assert (Hndx : List.NoDup (map id (c :: v :: tl))).
  { eapply Permutation_NoDup; [apply Permutation_map; symmetry; exact Hsx|].
    eapply NoDup_app_remove_r. exact Hnd'. }
  rewrite Hc, Hv, Hxi. split; [|split].
  - simpl in Hndx. inversion Hndx as [|? ? Hn _]; subst.
    intros E. apply Hn. left. now symmetry.
  - apply in_map. apply (Permutation_in _ Hsx). now left.
  - apply in_map. apply (Permutation_in _ Hsx). right. now left.
Qed.

End Formation.

Lemma Qltb_lt a b : Qltb a b = true <-> (a < b)%Q.
Proof.
  unfold Qltb. rewrite negb_true_iff. split.
  - intros H. apply Qnot_le_lt. intros Hle. apply Qle_bool_iff in Hle. congruence.
  - intros H. apply not_true_is_false. intros Hle. apply Qle_bool_iff in Hle.
    now apply (Qlt_not_le _ _ H).
Qed.

Lemma Qltb_ge a b : Qltb a b = false <-> (b <= a)%Q.
Proof.
  unfold Qltb. rewrite negb_false_iff. apply Qle_bool_iff.
Qed.

Section Search.

Variable squad : Frame Player.
Variable gw_col : string.
Variables captain_multiplier vice_captain_multiplier : Q.

Let optimize (fm : nat * nat * nat) : result lineup :=
  _optimize_formation squad (fst (fst fm)) (snd (fst fm)) (snd fm) gw_col
    captain_multiplier vice_captain_multiplier.

(** the loop over the formations: either nothing beat the incoming
    best, or the outcome is the first formation reaching the greatest
    score of the list *)
Lemma try_formations_spec (fs : list (nat * nat * nat)) :
  forall b b',
    try_formations squad gw_col captain_multiplier vice_captain_multiplier fs b = Ok b' ->
    (b' = b
     /\ forall fm l, In fm fs -> optimize fm = Ok l -> (l_points l <= best_points b)%Q)
    \/ exists pre fm post l,
         fs = pre ++ fm :: post
         /\ b' = mkBest (Some fm) (Some l) (l_points l)
         /\ optimize fm = Ok l
         /\ (best_points b < l_points l)%Q
         /\ (forall fm' l', In fm' pre -> optimize fm' = Ok l' ->
               (l_points l' < l_points l)%Q)
         /\ (forall fm' l', In fm' post -> optimize fm' = Ok l' ->
               (l_points l' <= l_points l)%Q).
Proof.
  induction fs as [|[[d m] f] fs IH]; intros b b' H; simpl in H.
  - injection H as <-. left. split; [reflexivity|]. intros ? ? [].
  - destruct (_optimize_formation squad d m f gw_col captain_multiplier
                vice_captain_multiplier) as [l0|e] eqn:E0.
    + destruct (Qltb (best_points b) (l_points l0)) eqn:Elt.
      * apply Qltb_lt in Elt. destruct (IH _ _ H) as [[-> Hall]|Hex].
        -- right. exists [], (d, m, f), fs, l0. simpl in Hall.
           repeat split; try assumption; try reflexivity.
           intros ? ? [].
        -- destruct Hex as (pre & fm & post & l & -> & -> & Hfm & Hlt & Hpre & Hpost).
           simpl in Hlt.
           right. exists ((d, m, f) :: pre), fm, post, l.
           repeat split; try assumption; try reflexivity.
           ++ now apply Qlt_trans with (l_points l0).
           ++ intros fm' l' [<-|Hin] Hl'.
              ** unfold optimize in Hl'. simpl in Hl'. rewrite E0 in Hl'.
                 now injection Hl' as <-.
              ** now apply (Hpre fm').
      * apply Qltb_ge in Elt. destruct (IH _ _ H) as [[-> Hall]|Hex].
        -- left. split; [reflexivity|]. intros fm l [<-|Hin] Hl.
           ++ unfold optimize in Hl. simpl in Hl. rewrite E0 in Hl.
              now injection Hl as <-.
           ++ now apply (Hall fm).
        -- destruct Hex as (pre & fm & post & l & -> & -> & Hfm & Hlt & Hpre & Hpost).
           right. exists ((d, m, f) :: pre), fm, post, l.
           repeat split; try assumption; try reflexivity.
           intros fm' l' [<-|Hin] Hl'.
           ++ unfold optimize in Hl'. simpl in Hl'. rewrite E0 in Hl'.
              injection Hl' as <-. now apply Qle_lt_trans with (best_points b).
           ++ now apply (Hpre fm').
    + destruct e; try discriminate H.
      destruct (IH _ _ H) as [[-> Hall]|Hex].
      * left. split; [reflexivity|]. intros fm l [<-|Hin] Hl.
        -- unfold optimize in Hl. simpl in Hl. rewrite E0 in Hl. discriminate.
        -- now apply (Hall fm).
      * destruct Hex as (pre & fm & post & l & -> & -> & Hfm & Hlt & Hpre & Hpost).
        right. exists ((d, m, f) :: pre), fm, post, l.
        repeat split; try assumption; try reflexivity.
        intros fm' l' [<-|Hin] Hl'.
        -- unfold optimize in Hl'. simpl in Hl'. rewrite E0 in Hl'. discriminate.
        -- now apply (Hpre fm').
Qed.

End Search.

Lemma with_gw_column_core squad gameweek squad' :
  with_gw_column squad gameweek = Ok squad' ->
  map core (rows squad') = map core (rows squad).
Proof.
  unfold with_gw_column.
  destruct (has_col (ep_gw gameweek) squad); [intros H; now injection H as <-|].
  destruct (negb (has_col "exp_pts_window" squad)); [discriminate|].
  assert (G : forall n : nat,
             map core (rows (set_column squad (ep_gw gameweek)
                               (map (fun p => (exp_pts_window p / inject_Z (Z.of_nat n))%Q)
                                    (rows squad))))
             = map core (rows squad)).
  { intros n. apply set_column_core. now rewrite length_map. }
  destruct (length _) as [|n].
  - specialize (G O). destruct (rows squad); [|discriminate].
    intros H. injection H as <-. exact G.
  - intros H. injection H as <-. apply G.
Qed.

Lemma core_ids (l l' : list Player) : map core l = map core l' -> map id l = map id l'.
Proof.
  intros H.
  assert (E : forall k, map id k = map (fun c : Z * Z * Z * Z * option Q * option Position =>
                                           fst (fst (fst (fst (fst c))))) (map core k)).
  { intros k. rewrite map_map. reflexivity. }
  now rewrite (E l), (E l'), H.
Qed.

(** a successful search, unfolded: the formation it settled on *)
Lemma select_starting_eleven_ok squad_result gameweek cm vm r :
  select_starting_eleven squad_result gameweek cm vm = Ok r ->
  exists squad' pre fm post l,
    with_gw_column (squad_df squad_result) gameweek = Ok squad'
    /\ allowed_formations = pre ++ fm :: post
    /\ _optimize_formation squad' (fst (fst fm)) (snd (fst fm)) (snd fm)
         (ep_gw gameweek) cm vm = Ok l
    /\ r = {| starting_eleven := l_starting_xi l;
              bench := l_bench l;
              formation := formation_str fm;
              captain_id := l_captain l;
              vice_captain_id := l_vice_captain l;
              expected_points_gw1 := l_points l;
              formation_breakdown := fun pos =>
                match pos with
                | GK => 1%nat
                | DEF => fst (fst fm)
                | MID => snd (fst fm)
                | FWD => snd fm
                end |}
    /\ (-1 < l_points l)%Q
    /\ (forall fm' l', In fm' pre ->
          _optimize_formation squad' (fst (fst fm')) (snd (fst fm')) (snd fm')
            (ep_gw gameweek) cm vm = Ok l' ->
          (l_points l' < l_points l)%Q)
    /\ (forall fm' l', In fm' post ->
          _optimize_formation squad' (fst (fst fm')) (snd (fst fm')) (snd fm')
            (ep_gw gameweek) cm vm = Ok l' ->
          (l_points l' <= l_points l)%Q).
Proof.
  unfold select_starting_eleven. intros H.
  destruct (with_gw_column (squad_df squad_result) gameweek) as [squad'|] eqn:Eg;
    run_bind H; [|discriminate H].
  destruct (try_formations squad' (ep_gw gameweek) cm vm allowed_formations
              (mkBest None None (-1)%Q)) as [b|] eqn:Et; run_bind H; [|discriminate H].
  destruct (try_formations_spec _ _ _ _ _ _ _ Et) as [[-> _]|Hex].
  - discriminate.
  - destruct Hex as (pre & fm & post & l & Hal & -> & Hfm & Hlt & Hpre & Hpost).
    simpl in H. injection H as <-.
    exists squad', pre, fm, post, l. repeat split; assumption.
Qed.

(** C9: for a squad of 15 players with unique ids, a successful
    selection returns starters and bench that split the squad (as ids:
    together they are the squad's, and no id is on both sides), 11
    starters with exactly one goalkeeper and 4 on the bench, a captain
    and a vice-captain who are two different starters, and one of the 8
    allowed formations. *)
Theorem lineup_invariants (squad_result : SquadResult) (gameweek : Z)
    (captain_multiplier vice_captain_multiplier : Q) (r : StartingElevenResult) :
  length (rows (squad_df squad_result)) = 15%nat ->
  List.NoDup (map id (rows (squad_df squad_result))) ->
  select_starting_eleven squad_result gameweek captain_multiplier
    vice_captain_multiplier = Ok r ->
  Permutation (map id (starters r) ++ map id (benched r))
    (map id (rows (squad_df squad_result)))
  /\ (forall i, In i (map id (starters r)) -> ~ In i (map id (benched r)))
  /\ length (starters r) = 11%nat
  /\ length (benched r) = 4%nat
  /\ length (List.filter (has_position GK) (starters r)) = 1%nat
  /\ captain_id r <> vice_captain_id r
  /\ In (captain_id r) (map id (starters r))
  /\ In (vice_captain_id r) (map id (starters r))
  /\ In (formation r) (map formation_str allowed_formations).
Proof.
  intros Hlen Hnd Hok.
  destruct (select_starting_eleven_ok _ _ _ _ _ Hok)
    as (squad' & pre & fm & post & l & Hg & Hal & Hfm & -> & _).
  unfold starters, benched. simpl.
  pose proof (core_ids _ _ (with_gw_column_core _ _ _ Hg)) as Hids.
  assert (Hnd' : List.NoDup (map id (rows squad'))) by now rewrite Hids.
  destruct (optimize_formation_partition _ _ _ _ _ _ _ _ Hnd' Hfm)
    as (Hperm & Hxi & Hgk & Hcv & Hc & Hv).
  assert (Hin : In fm allowed_formations).
  { rewrite Hal. apply in_or_app. right. now left. }
  assert (H11 : (1 + fst (fst fm) + snd (fst fm) + snd fm = 11)%nat).
  { unfold allowed_formations in Hin. simpl in Hin.
    repeat (destruct Hin as [<-|Hin]; [reflexivity|]). destruct Hin. }
  assert (Hp : Permutation (map id (rows (l_starting_xi l)) ++ map id (rows (l_bench l)))
                 (map id (rows (squad_df squad_result)))).
  { rewrite <- Hids, <- map_app. now apply Permutation_map. }
  split; [assumption|].
  split.
  { intros i. apply NoDup_app_disjoint.
    eapply Permutation_NoDup; [symmetry; exact Hp | assumption]. }
  split; [lia|].
  split.
  { apply Permutation_length in Hp. rewrite length_app, !length_map in Hp. lia. }
  split; [assumption|]. split; [assumption|]. split; [assumption|].
  split; [assumption|]. exact (in_map formation_str allowed_formations fm Hin).
Qed.

(** ** Heuristic solver *)









Section Greedy.

Variable may_take : Player -> ga_state -> bool.
Hypothesis may_take_sound : forall p st,
  may_take p st = true ->
  (now_cost p <= remaining_budget st)%Z
  /\ (club_count (selected_players st) (team p) < 3)%nat.

Variable limit : nat.







End Greedy.
















(** ** The result object *)









(** ** Feasible assignments select a legal squad *)













(** ** Squad selection *)












(** the heuristic on the league pool *)
Example league_squad_heuristic :
  match run_solver no_solver league_pool league_fixtures 1 4 100 (SolverName "ga") None with
  | Ok r => map id (rows (squad_df r)) = league_squad_ids
  | Raise _ => False
  end.
Proof. vm_compute. reflexivity. Qed.

(** ** The rankings of the heuristic *)

Section Sorting.

Context {A : Type}.
Variable le : A -> A -> bool.
Hypothesis le_total : forall a b, le a b = false -> le b a = true.



Hypothesis le_trans : forall a b c, le a b = true -> le b c = true -> le a c = true.


End Sorting.










(** the heuristic on the pool of the test suite: the forwards all play
    for clubs that already have three players selected *)
Example heuristic_on_test_dataset :
  run_solver no_solver create_minimal_test_dataset create_fixtures_dummy 1 4 100
    (SolverName "ga") None
  = Raise (InfeasibleError (CannotFill FWD 3 0 384)).
Proof. vm_compute. reflexivity. Qed.

(** ** The lineup of a selected squad *)

Lemma lineup_invariants_witness :
  exists r,
    select_starting_eleven league_squad 1 2 1 = Ok r
    /\ length (starters r) = 11%nat /\ length (benched r) = 4%nat
    /\ captain_id r <> vice_captain_id r.
Proof.
  assert (Hok : is_ok (select_starting_eleven league_squad 1 2 1) = true)
    by (vm_compute; reflexivity).
  assert (Hlen : length (rows (squad_df league_squad)) = 15%nat)
    by (vm_compute; reflexivity).
  assert (Hnd : List.NoDup (map id (rows (squad_df league_squad)))).
  { apply duplicated_any_false. vm_compute. reflexivity. }
  destruct (select_starting_eleven league_squad 1 2 1) as [r|e] eqn:E;
    [|discriminate Hok].
  exists r. split; [reflexivity|].
  destruct (lineup_invariants league_squad 1 2 1 r Hlen Hnd E)
    as (_ & _ & H11 & H4 & _ & Hcv & _).
  split; [exact H11|]. split; [exact H4 | exact Hcv].
Defined.

Example league_lineup :
  match select_starting_eleven league_squad 1 2 1 with
  | Ok r => (formation r, captain_id r, vice_captain_id r,
             map id (starters r), map id (benched r), Qred (expected_points_gw1 r))
            = ("3-4-3", 20%Z, 22%Z,
               [4; 10; 12; 11; 20; 18; 17; 16; 22; 21; 25]%Z, [7; 6; 15; 2]%Z,
               5176 # 95)
  | Raise _ => False
  end.
Proof. vm_compute. reflexivity. Qed.

Example slump_scores :
  map (fun fm => option_map Qred
                   (formation_score (squad_df slump_squad) (ep_gw 1) 2 1 fm))
    allowed_formations
  = [Some (-6); Some (-6); Some (-6); Some (-29 # 5);
     Some (-6); Some (-6); Some (-29 # 5); Some (-29 # 5)]%Q.
Proof. vm_compute. reflexivity. Qed.

(** C8: a squad whose players are all expected to lose points.  Every
    one of the 8 formations fits the squad and has a score, but each
    score is at most -1, the value [best_points] starts from, so no
    formation is ever kept and the call raises the error meant for a
    squad that fits no formation. *)
Theorem negative_scores_no_formation :
  is_ok (run_solver no_solver slump_pool league_fixtures 1 4 100
           (SolverName "ga") None) = true
  /\ map (fun pos => length (per_position slump_squad pos)) [GK; DEF; MID; FWD]
     = [2; 5; 5; 3]%nat
  /\ Forall (fun fm =>
       exists score,
         formation_score (squad_df slump_squad) (ep_gw 1) 2 1 fm = Some score
         /\ (score <= -1)%Q)
       allowed_formations
  /\ select_starting_eleven slump_squad 1 2 1 = Raise (ValueError NoValidFormation).
Proof.
  split; [vm_compute; reflexivity|].
  split; [vm_compute; reflexivity|].
  split; [|vm_compute; reflexivity].
  repeat constructor; eexists; (split; [vm_compute; reflexivity | vm_compute; discriminate]).
Qed.
